(** * express-hotwire: the turbo-stream responder of [hotwire-middleware.ts]

    A shallow embedding of [src/lib/hotwire-middleware.ts] and the
    properties of its specification.

    The Express response is a mutable object that the code drives through
    three of its methods: [res.setHeader], [res.render] and [res.send].
    It is modelled as a record holding the header table, the body written
    so far, the view engine behind [res.render], and a journal of the
    method calls made on it, in the order they were made.  An [async]
    function is a computation on that record that completes either
    fulfilled with a value or rejected with an error; [await] is the bind
    of that computation. *)

From stdpp Require Import base option list strings gmap.

Open Scope string_scope.
Open Scope list_scope.

(** ** Values of the host language *)

(** The characters a string literal of this file cannot hold directly. *)
Definition LF : string := String (Ascii.ascii_of_nat 10) EmptyString.
Definition DQ : string := String (Ascii.ascii_of_nat 34) EmptyString.

(** [unknown] values, as far as view locals need them. *)
#[local] Set Warnings "-register-all".
Inductive JsValue : Type :=
  | JsUndefined
  | JsNull
  | JsBoolean (b : bool)
  | JsNumber (n : Z)
  | JsString (s : string)
  | JsObject (fields : list (string * JsValue)).

#[local] Set Warnings "+register-all".

(** [type Locals = Record<string, unknown>] *)
Abbreviation Locals := (gmap string JsValue).

(** The value a promise is rejected with. *)
Record JsError : Type := MkError { error_name : string; error_message : string }.

(** [type StreamOptions = { partial; locals? }].  The declared type makes
    [partial] a string, but [stream] reads it through [options?.partial]
    and tests it for truthiness, so an untyped caller may leave it out:
    [None] is [undefined]. *)
Record StreamOptions : Type := MkOptions {
  partial : option string;
  locals : option Locals
}.

(** [enum TurboStreamActions] and the string each member stands for. *)
Inductive TurboStreamActions : Type := append | prepend | replace | update | remove.

Definition action_value (action : TurboStreamActions) : string :=
  match action with
  | append => "append"
  | prepend => "prepend"
  | replace => "replace"
  | update => "update"
  | remove => "remove"
  end.

(** ** The response object *)

(** The second argument of [res.setHeader]: [string | string[]]. *)
Inductive HeaderValue : Type :=
  | HvString (s : string)
  | HvArray (items : list string).

(** What [res.render] hands to its callback: [(err, html)], where a falsy
    [err] ([None]) means the view was rendered. *)
Definition RenderCallbackArgs : Type := option JsError * string.

(** One method call on the response. *)
Inductive Call : Type :=
  | CallSetHeader (name : string) (value : HeaderValue)
  | CallRender (view : string) (view_locals : option Locals)
  | CallSend (payload : string).

(** The response, as far as the middleware touches it.  Header names are
    kept as the caller writes them, and [body] is [None] until something
    is sent. *)
Record Response : Type := MkResponse {
  headers : gmap string HeaderValue;
  body : option string;
  view_engine : string -> option Locals -> RenderCallbackArgs;
  calls : list Call
}.

Definition record_call (c : Call) (res : Response) : Response :=
  {| headers := headers res; body := body res;
     view_engine := view_engine res; calls := calls res ++ [c] |}.

(** ** Promises *)

Inductive Completion (A : Type) : Type :=
  | Fulfilled (value : A)
  | Rejected (reason : JsError).
Arguments Fulfilled {A} value.
Arguments Rejected {A} reason.

(** An asynchronous computation over the response it closes over. *)
Definition Promise (A : Type) : Type := Response -> Completion A * Response.

Definition resolve {A : Type} (a : A) : Promise A := fun res => (Fulfilled a, res).
Definition reject {A : Type} (e : JsError) : Promise A := fun res => (Rejected e, res).

(** [await p] followed by the rest of the function: a rejection of [p]
    is thrown, so the rest does not run and the caller is rejected with
    the same reason. *)
Definition await {A B : Type} (p : Promise A) (k : A -> Promise B) : Promise B :=
  fun res =>
    match p res with
    | (Fulfilled a, res') => k a res'
    | (Rejected e, res') => (Rejected e, res')
    end.

Notation "'let!' x ':=' 'await' p 'in' k" := (await p (fun x => k))
  (at level 10, x name, p at level 100, k at level 200).
Notation "p ';;' k" := (await p (fun _ => k))
  (at level 100, k at level 200, right associativity).

(** [res.setHeader(name, value)] *)
Definition setHeader (name : string) (value : HeaderValue) : Promise unit :=
  fun res =>
    (Fulfilled tt,
     record_call (CallSetHeader name value)
       {| headers := <[name := value]> (headers res); body := body res;
          view_engine := view_engine res; calls := calls res |}).

(** [res.send(payload)] *)
Definition send (payload : string) : Promise unit :=
  fun res =>
    (Fulfilled tt,
     record_call (CallSend payload)
       {| headers := headers res; body := Some payload;
          view_engine := view_engine res; calls := calls res |}).

(** ** The middleware *)

(** [render]: [res.render] wrapped in a promise that is rejected with the
    callback's [err] when it is truthy and fulfilled with its [html]
    otherwise. *)
Definition render (view : string) (view_locals : option Locals) : Promise string :=
  fun res =>
    let '(err, html) := view_engine res view view_locals in
    match err with
    | Some e => reject e
    | None => resolve html
    end (record_call (CallRender view view_locals) res).

(** [options?.partial]: [undefined] when [options] is, or when it has no
    [partial]. *)
Definition optional_partial (options : option StreamOptions) : option string :=
  match options with
  | None => None
  | Some o => partial o
  end.

(** Truthiness of a [string | undefined]: [undefined] and the empty
    string are falsy. *)
Definition truthy (v : option string) : bool :=
  match v with
  | None => false
  | Some s => negb (String.eqb s EmptyString)
  end.

(** The template literal that [stream] returns. *)
Definition stream_template (action target content : string) : string :=
  LF +:+
  "  <turbo-stream action=" +:+ DQ +:+ action +:+ DQ +:+
      " target=" +:+ DQ +:+ target +:+ DQ +:+ ">" +:+ LF +:+
  "    <template>" +:+ LF +:+
  content +:+ LF +:+
  "    </template>" +:+ LF +:+
  "  </turbo-stream>" +:+ LF +:+
  "  ".

(** [options?.partial ? await render(res, options.partial, options.locals) : '']:
    the true branch is only reached with [options] and its [partial]
    defined, which is where the two are bound. *)
Definition stream_content (options : option StreamOptions) : Promise string :=
  match options with
  | Some o =>
      match partial o with
      | Some p => if truthy (Some p) then render p (locals o) else resolve EmptyString
      | None => resolve EmptyString
      end
  | None => resolve EmptyString
  end.

(** [stream] *)
Definition stream (target : string) (action : TurboStreamActions)
    (options : option StreamOptions) : Promise string :=
  let! content := await stream_content options in
  resolve (stream_template (action_value action) target content).

(** [type TurboStreamActionResponseHandler] *)
Definition TurboStreamActionResponseHandler : Type :=
  string -> option StreamOptions -> Promise unit.

(** [streamActionHandler], the closure [middleware] builds per action. *)
Definition streamActionHandler (action : TurboStreamActions)
    : TurboStreamActionResponseHandler :=
  fun target options =>
    setHeader "Content-Type" (HvArray ["text/html; turbo-stream; charset=utf-8"]) ;;
    let! payload := await stream target action options in
    send payload.

(** [type TurboStream = Record<TurboStreamActions, TurboStreamActionResponseHandler>] *)
Record TurboStream : Type := MkTurboStream {
  ts_append : TurboStreamActionResponseHandler;
  ts_prepend : TurboStreamActionResponseHandler;
  ts_replace : TurboStreamActionResponseHandler;
  ts_update : TurboStreamActionResponseHandler;
  ts_remove : TurboStreamActionResponseHandler
}.

(** [res.turboStream[action]] *)
Definition entry_point (ts : TurboStream) (action : TurboStreamActions)
    : TurboStreamActionResponseHandler :=
  match action with
  | append => ts_append ts
  | prepend => ts_prepend ts
  | replace => ts_replace ts
  | update => ts_update ts
  | remove => ts_remove ts
  end.

(** The response as handlers down the pipeline see it: the Express
    response and the [turboStream] property the middleware adds to it. *)
Record HotwireResponse : Type := MkHotwireResponse {
  res_base : Response;
  res_turboStream : option TurboStream
}.

(** Express's [NextFunction]: the rest of the pipeline, run on the
    response as it stands when [next()] is called. *)
Definition NextFunction : Type := HotwireResponse -> HotwireResponse.

Definition Request : Type := unit.

(** [middleware] *)
Definition middleware (_req : Request) (res : HotwireResponse) (next : NextFunction)
    : HotwireResponse :=
  let turboStream :=
    {| ts_append := streamActionHandler append;
       ts_prepend := streamActionHandler prepend;
       ts_replace := streamActionHandler replace;
       ts_update := streamActionHandler update;
       ts_remove := streamActionHandler remove |} in
  let res := {| res_base := res_base res; res_turboStream := Some turboStream |} in
  next res.

(** The one header call a handler makes, and what it does to the header
    table. *)
Definition content_type_call : Call :=
  CallSetHeader "Content-Type" (HvArray ["text/html; turbo-stream; charset=utf-8"]).
Definition with_content_type (table : gmap string HeaderValue) : gmap string HeaderValue :=
  <["Content-Type" := HvArray ["text/html; turbo-stream; charset=utf-8"]]> table.

(** ** Reading the journal *)

Definition is_set_header (c : Call) : bool :=
  match c with CallSetHeader _ _ => true | _ => false end.
Definition is_render (c : Call) : bool :=
  match c with CallRender _ _ => true | _ => false end.
Definition is_send (c : Call) : bool :=
  match c with CallSend _ => true | _ => false end.

(** The headers set, the views rendered and the bodies written by a
    sequence of calls. *)
Definition headers_set (l : list Call) : list (string * HeaderValue) :=
  omap (fun c => match c with CallSetHeader n v => Some (n, v) | _ => None end) l.
Definition renders (l : list Call) : list (string * option Locals) :=
  omap (fun c => match c with CallRender p ls => Some (p, ls) | _ => None end) l.
Definition sent (l : list Call) : list string :=
  omap (fun c => match c with CallSend b => Some b | _ => None end) l.

(** The calls one run of [p] adds to the journal of [res]. *)
Definition invocation_calls {A : Type} (p : Promise A) (res : Response) : list Call :=
  drop (length (calls res)) (calls (snd (p res))).

(** Every call satisfying [P] comes earlier in [l] than every call
    satisfying [Q]. *)
Definition happens_before (P Q : Call -> bool) (l : list Call) : Prop :=
  forall (i j : nat) (c d : Call),
    l !! i = Some c -> l !! j = Some d -> P c = true -> Q d = true -> i < j.

(** The fragment an invocation with [options] embeds, given the response
    whose view engine it renders with. *)
Inductive rendered_fragment (res : Response) : option StreamOptions -> string -> Prop :=
  | fragment_empty options :
      truthy (optional_partial options) = false ->
      rendered_fragment res options EmptyString
  | fragment_html o p html :
      partial o = Some p ->
      p <> EmptyString ->
      view_engine res p (locals o) = (None, html) ->
      rendered_fragment res (Some o) html.

(** The envelope as section 6.1 of the specification prints it: five
    lines, the first starting with two spaces and the last ending with
    the closing tag. *)
Definition envelope_6_1 (action target content : string) : string :=
  String.concat LF
    [ "  <turbo-stream action=" +:+ DQ +:+ action +:+ DQ +:+
        " target=" +:+ DQ +:+ target +:+ DQ +:+ ">";
      "    <template>";
      content;
      "    </template>";
      "  </turbo-stream>" ].

(** The three ways a run can go, by what [options] holds and what the
    view engine answers. *)
Inductive run_case (res : Response) : option StreamOptions -> Prop :=
  | case_no_partial options :
      truthy (optional_partial options) = false -> run_case res options
  | case_rendered o p html :
      partial o = Some p -> p <> EmptyString ->
      view_engine res p (locals o) = (None, html) -> run_case res (Some o)
  | case_failed o p e html :
      partial o = Some p -> p <> EmptyString ->
      view_engine res p (locals o) = (Some e, html) -> run_case res (Some o).

(** Two calls that are the same but for the action written into the
    envelope they send. *)
Inductive same_up_to_action (a1 a2 : TurboStreamActions) (target : string)
    : Call -> Call -> Prop :=
  | same_call c :
      is_send c = false -> same_up_to_action a1 a2 target c c
  | same_send content :
      same_up_to_action a1 a2 target
        (CallSend (stream_template (action_value a1) target content))
        (CallSend (stream_template (action_value a2) target content)).

(** A response to run examples on: nothing set, nothing written, and a
    view engine that renders [messages/show] and fails on every other
    view. *)
Definition view_not_found : JsError :=
  {| error_name := "Error"; error_message := "Failed to lookup view" |}.

Definition sample_engine (view : string) (_ : option Locals) : RenderCallbackArgs :=
  if String.eqb view "messages/show"
  then (None, "<p>My new message</p>")
  else (Some view_not_found, EmptyString).

Definition fresh_response : Response :=
  {| headers := ∅; body := None; view_engine := sample_engine; calls := [] |}.

Definition sample_locals : Locals :=
  {[ "message" := JsObject [("id", JsNumber 1); ("content", JsString "My new message")] ]}.

Definition sample_options : StreamOptions :=
  {| partial := Some "messages/show"; locals := Some sample_locals |}.

(** ** The value a header carries *)

(** The values a response carries for a header set to [v]: a string is
    the one value of the header, and an array gives the header one value
    per item, so that the array of one string carries that string and
    nothing else. *)
Definition header_values (v : HeaderValue) : list string :=
  match v with
  | HvString s => [s]
  | HvArray items => items
  end.

(** The header lines that a sequence of [setHeader] arguments amounts
    to: name and value, one line per value. *)
Definition header_lines (l : list (string * HeaderValue)) : list (string * string) :=
  flat_map (fun nv => map (pair (fst nv)) (header_values (snd nv))) l.

(** ** The rest of the module and its use *)

(** [buildMiddleware]: the default export, [() => middleware]. *)
Definition buildMiddleware (_ : unit)
    : Request -> HotwireResponse -> NextFunction -> HotwireResponse :=
  middleware.

(** The route of the usage example in the documentation of [TurboStream],
    [(req, res) => { res.turboStream[action](target, options) }], as a
    step of the pipeline: it runs the entry point on the response.  On a
    response without a [turboStream] the property access throws before
    anything is done to the response, which is left as it is. *)
Definition route (action : TurboStreamActions) (target : string)
    (options : option StreamOptions) : NextFunction :=
  fun res =>
    match res_turboStream res with
    | Some ts =>
        {| res_base := snd (entry_point ts action target options (res_base res));
           res_turboStream := res_turboStream res |}
    | None => res
    end.

(** What the template literal of [stream] puts between the target and
    the content. *)
Definition template_opening : string :=
  DQ +:+ ">" +:+ LF +:+ "    <template>" +:+ LF.

(** No double quote occurs in [s]. *)
Fixpoint quote_free (s : string) : bool :=
  match s with
  | EmptyString => true
  | String c s' => negb (Ascii.eqb c (Ascii.ascii_of_nat 34)) && quote_free s'
  end.

(** * Properties *)

(** ** Strings *)

Lemma string_app_nil (s : string) : EmptyString +:+ s = s.
Proof. reflexivity. Qed.

Lemma string_app_cons (c : Ascii.ascii) (s1 s2 : string) :
  String c s1 +:+ s2 = String c (s1 +:+ s2).
Proof. reflexivity. Qed.

Lemma string_app_assoc (s1 s2 s3 : string) :
  (s1 +:+ s2) +:+ s3 = s1 +:+ (s2 +:+ s3).
Proof.
  induction s1 as [|c s1 IH].
  - now rewrite !string_app_nil.
  - now rewrite !string_app_cons, IH.
Qed.

Lemma truthy_Some (p : string) : truthy (Some p) = true <-> p <> EmptyString.
Proof.
  unfold truthy. destruct (String.eqb_spec p EmptyString) as [E|E]; simpl.
  - split; [discriminate | intros H; now destruct H].
  - split; [intros _; exact E | reflexivity].
Qed.

(** The template of the source is the envelope of section 6.1 between a
    leading line feed and a trailing line feed and two spaces. *)
Lemma stream_template_envelope (action target content : string) :
  stream_template action target content =
  LF +:+ envelope_6_1 action target content +:+ LF +:+ "  ".
Proof.
  unfold stream_template, envelope_6_1. cbn [String.concat].
  now rewrite !string_app_assoc.
Qed.

(** ** What one run of a handler does *)

Section Runs.
Variables (action : TurboStreamActions) (target : string) (res : Response).

(** No partial to render: the header is set and the empty envelope sent. *)
Lemma run_without_partial (options : option StreamOptions) :
  truthy (optional_partial options) = false ->
  streamActionHandler action target options res =
  (Fulfilled tt,
   {| headers := with_content_type (headers res);
      body := Some (stream_template (action_value action) target EmptyString);
      view_engine := view_engine res;
      calls := calls res ++
        [content_type_call;
         CallSend (stream_template (action_value action) target EmptyString)] |}).
Proof.
  intros Hf. unfold streamActionHandler, stream, stream_content, await, setHeader,
    send, resolve, record_call; simpl.
  destruct options as [[[p|] ls]|]; simpl in *; rewrite ?Hf; simpl;
    rewrite <- ?app_assoc; reflexivity.
Qed.

(** The view renders: header, render, send. *)
Lemma run_rendered (o : StreamOptions) (p html : string) :
  partial o = Some p -> p <> EmptyString ->
  view_engine res p (locals o) = (None, html) ->
  streamActionHandler action target (Some o) res =
  (Fulfilled tt,
   {| headers := with_content_type (headers res);
      body := Some (stream_template (action_value action) target html);
      view_engine := view_engine res;
      calls := calls res ++
        [content_type_call; CallRender p (locals o);
         CallSend (stream_template (action_value action) target html)] |}).
Proof.
  intros Hp Hne Hv. apply truthy_Some in Hne.
  unfold streamActionHandler, stream, stream_content, await, setHeader, send.
  rewrite Hp, Hne. unfold render, resolve, record_call; simpl.
  rewrite Hv; simpl. rewrite <- !app_assoc; reflexivity.
Qed.

(** The view engine reports an error: header, render, rejection. *)
Lemma run_render_failed (o : StreamOptions) (p html : string) (e : JsError) :
  partial o = Some p -> p <> EmptyString ->
  view_engine res p (locals o) = (Some e, html) ->
  streamActionHandler action target (Some o) res =
  (Rejected e,
   {| headers := with_content_type (headers res);
      body := body res;
      view_engine := view_engine res;
      calls := calls res ++ [content_type_call; CallRender p (locals o)] |}).
Proof.
  intros Hp Hne Hv. apply truthy_Some in Hne.
  unfold streamActionHandler, stream, stream_content, await, setHeader, send.
  rewrite Hp, Hne. unfold render, resolve, record_call; simpl.
  rewrite Hv; simpl. rewrite <- !app_assoc; reflexivity.
Qed.

(** A run whose fragment is [content] ends fulfilled, having sent the
    envelope around [content] last, after the header call and at most
    one render. *)
Lemma run_fragment (options : option StreamOptions) (content : string) :
  rendered_fragment res options content ->
  exists mid : list Call,
    (mid = [] \/ exists p ls, mid = [CallRender p ls]) /\
    streamActionHandler action target options res =
    (Fulfilled tt,
     {| headers := with_content_type (headers res);
        body := Some (stream_template (action_value action) target content);
        view_engine := view_engine res;
        calls := calls res ++ content_type_call :: mid ++
          [CallSend (stream_template (action_value action) target content)] |}).
Proof.
  intros Hfrag. inversion Hfrag as [opts Hf | o p html Hp Hne Hv]; subst.
  - exists []. split; [now left | now apply run_without_partial].
  - exists [CallRender p (locals o)]. split; [right; eauto | now apply run_rendered].
Qed.

End Runs.

Lemma run_cases (res : Response) (options : option StreamOptions) : run_case res options.
Proof.
  destruct options as [o|]; [|now apply case_no_partial].
  destruct (partial o) as [p|] eqn:Hp.
  - destruct (truthy (Some p)) eqn:Hne.
    + apply truthy_Some in Hne.
      destruct (view_engine res p (locals o)) as [[e|] html] eqn:Hv.
      * exact (case_failed res o p e html Hp Hne Hv).
      * exact (case_rendered res o p html Hp Hne Hv).
    + apply case_no_partial. simpl. now rewrite Hp.
  - apply case_no_partial. simpl. now rewrite Hp.
Qed.

Lemma invocation_calls_app {A : Type} (p : Promise A) (res : Response)
    (c : Completion A) (res' : Response) (new : list Call) :
  p res = (c, res') -> calls res' = calls res ++ new ->
  invocation_calls p res = new.
Proof.
  intros Hrun Hcalls. unfold invocation_calls.
  rewrite Hrun; simpl. rewrite Hcalls. apply drop_app_length.
Qed.

(** Orders within the short journals a run can produce are settled by
    going through the positions. *)
Ltac by_positions :=
  let i := fresh "i" in let j := fresh "j" in
  intros i j ? ? ? ? ? ?;
  do 4 (try destruct i as [|i]); do 4 (try destruct j as [|j]);
  simpl in *; simplify_eq; try lia; try discriminate.

(** ** The envelope written as body *)

Section Envelope.
Variables (action : TurboStreamActions) (target : string) (res : Response).

(** C1, as the code has it: whatever the action, the target and the
    rendered fragment (the empty string when no partial is rendered),
    the handler completes having written exactly one body: a line feed,
    then the five lines of the envelope of section 6.1 with the action
    value, the target and the fragment put in as they are, then a line
    feed and two spaces. *)
Theorem body_is_framed_envelope (options : option StreamOptions) (content : string) :
  rendered_fragment res options content ->
  fst (streamActionHandler action target options res) = Fulfilled tt /\
  body (snd (streamActionHandler action target options res)) =
    Some (LF +:+ envelope_6_1 (action_value action) target content +:+ LF +:+ "  ") /\
  sent (invocation_calls (streamActionHandler action target options) res) =
    [LF +:+ envelope_6_1 (action_value action) target content +:+ LF +:+ "  "].
Proof.
  intros Hfrag.
  destruct (run_fragment action target res options content Hfrag)
    as (mid & Hmid & Hrun).
  rewrite stream_template_envelope in Hrun.
  split; [|split].
  - now rewrite Hrun.
  - now rewrite Hrun.
  - erewrite invocation_calls_app; [| exact Hrun | reflexivity].
    destruct Hmid as [-> | (p & ls & ->)]; reflexivity.
Qed.

End Envelope.

Lemma body_is_framed_envelope_witness :
  rendered_fragment fresh_response None EmptyString /\
  body (snd (streamActionHandler replace "messages" None fresh_response)) =
    Some (LF +:+ envelope_6_1 "replace" "messages" EmptyString +:+ LF +:+ "  ").
Proof.
  assert (H : rendered_fragment fresh_response None EmptyString)
    by (apply fragment_empty; reflexivity).
  split; [exact H|].
  exact (proj1 (proj2 (body_is_framed_envelope replace "messages" fresh_response
                         None EmptyString H))).
Defined.

(** C1, as the claim states it, fails: with no options the body that
    [append] writes for target [messages] is not the text of section 6.1
    itself, which neither starts with a line feed nor ends with a line
    feed and two spaces. *)
Lemma body_is_not_bare_envelope :
  rendered_fragment fresh_response None EmptyString /\
  body (snd (streamActionHandler append "messages" None fresh_response)) <>
    Some (envelope_6_1 (action_value append) "messages" EmptyString).
Proof.
  split; [apply fragment_empty; reflexivity|].
  rewrite run_without_partial by reflexivity. simpl body.
  intros H. apply (f_equal (fun b => String.length <$> b)) in H.
  vm_compute in H. discriminate H.
Qed.

(** ** Rendering the partial *)

Section Rendering.
Variables (action : TurboStreamActions) (target : string) (res : Response).
Variables (o : StreamOptions) (p : string).
Hypothesis Hpartial : partial o = Some p.
Hypothesis Hnonempty : p <> EmptyString.

(** C2, as the code has it: when the options hold a partial that is not
    the empty string, the view engine is called exactly once, with that
    partial and the locals of the options (absent when the caller gave
    none); and when it answers with HTML, the body written holds that
    HTML unchanged between the line feed after the opening [<template>]
    tag and the line feed before the closing one. *)
Theorem partial_rendered_once_and_embedded :
  renders (invocation_calls (streamActionHandler action target (Some o)) res) =
    [(p, locals o)] /\
  forall html : string,
    view_engine res p (locals o) = (None, html) ->
    body (snd (streamActionHandler action target (Some o) res)) =
      Some ((LF +:+ "  <turbo-stream action=" +:+ DQ +:+ action_value action +:+ DQ +:+
               " target=" +:+ DQ +:+ target +:+ DQ +:+ ">" +:+ LF +:+
               "    <template>" +:+ LF) +:+
            html +:+
            (LF +:+ "    </template>" +:+ LF +:+ "  </turbo-stream>" +:+ LF +:+ "  ")).
Proof.
  split.
  - destruct (view_engine res p (locals o)) as [[e|] html] eqn:Hv.
    + erewrite invocation_calls_app;
        [| exact (run_render_failed action target res o p html e Hpartial Hnonempty Hv)
         | reflexivity].
      reflexivity.
    + erewrite invocation_calls_app;
        [| exact (run_rendered action target res o p html Hpartial Hnonempty Hv)
         | reflexivity].
      reflexivity.
  - intros html Hv.
    rewrite (run_rendered action target res o p html Hpartial Hnonempty Hv).
    simpl body. unfold stream_template.
    now rewrite !string_app_assoc.
Qed.

(** C3: when the view engine reports an error for the partial and the
    locals, the handler's promise is rejected with that very error, the
    engine has been asked once, no body is sent and the body of the
    response is what it was. *)
Theorem render_error_rejects_unwritten (e : JsError) (html : string) :
  view_engine res p (locals o) = (Some e, html) ->
  fst (streamActionHandler action target (Some o) res) = Rejected e /\
  renders (invocation_calls (streamActionHandler action target (Some o)) res) =
    [(p, locals o)] /\
  sent (invocation_calls (streamActionHandler action target (Some o)) res) = [] /\
  body (snd (streamActionHandler action target (Some o) res)) = body res.
Proof.
  intros Hv.
  pose proof (run_render_failed action target res o p html e Hpartial Hnonempty Hv)
    as Hrun.
  repeat split.
  - now rewrite Hrun.
  - erewrite invocation_calls_app; [| exact Hrun | reflexivity]. reflexivity.
  - erewrite invocation_calls_app; [| exact Hrun | reflexivity]. reflexivity.
  - now rewrite Hrun.
Qed.

End Rendering.

Lemma partial_rendered_once_and_embedded_witness :
  renders (invocation_calls
             (streamActionHandler append "messages" (Some sample_options)) fresh_response) =
    [("messages/show", Some sample_locals)] /\
  body (snd (streamActionHandler append "messages" (Some sample_options) fresh_response)) =
    Some ((LF +:+ "  <turbo-stream action=" +:+ DQ +:+ "append" +:+ DQ +:+
             " target=" +:+ DQ +:+ "messages" +:+ DQ +:+ ">" +:+ LF +:+
             "    <template>" +:+ LF) +:+
          "<p>My new message</p>" +:+
          (LF +:+ "    </template>" +:+ LF +:+ "  </turbo-stream>" +:+ LF +:+ "  ")).
Proof.
  assert (Hne : "messages/show" <> EmptyString) by discriminate.
  destruct (partial_rendered_once_and_embedded append "messages" fresh_response
              sample_options "messages/show" eq_refl Hne) as [Honce Hbody].
  split; [exact Honce | exact (Hbody "<p>My new message</p>" eq_refl)].
Defined.

(** C2, as the claim states it, fails: options whose partial is the
    empty string do hold a partial, yet the view engine is not called
    with it, nor at all. *)
Lemma empty_partial_not_rendered :
  partial {| partial := Some EmptyString; locals := None |} = Some EmptyString /\
  renders (invocation_calls
             (streamActionHandler append "messages"
                (Some {| partial := Some EmptyString; locals := None |}))
             fresh_response) <> [(EmptyString, None)].
Proof.
  split; [reflexivity|].
  erewrite invocation_calls_app;
    [| apply run_without_partial; reflexivity | reflexivity].
  discriminate.
Qed.

Lemma render_error_rejects_unwritten_witness :
  view_engine fresh_response "messages/missing" None = (Some view_not_found, EmptyString) /\
  fst (streamActionHandler update "messages"
         (Some {| partial := Some "messages/missing"; locals := None |}) fresh_response) =
    Rejected view_not_found /\
  body (snd (streamActionHandler update "messages"
         (Some {| partial := Some "messages/missing"; locals := None |}) fresh_response)) =
    None.
Proof.
  assert (Hne : "messages/missing" <> EmptyString) by discriminate.
  pose proof (render_error_rejects_unwritten update "messages" fresh_response
                {| partial := Some "messages/missing"; locals := None |}
                "messages/missing" eq_refl Hne view_not_found EmptyString eq_refl)
    as (Hrej & _ & _ & Hbody).
  split; [reflexivity | split; [exact Hrej | exact Hbody]].
Defined.

(** ** The order of the calls and the header *)

Section Ordering.
Variables (action : TurboStreamActions) (target : string) (res : Response).
Variable options : option StreamOptions.

(** The journal of one run, in each of the three cases. *)
Lemma run_calls_shape :
  invocation_calls (streamActionHandler action target options) res =
    [CallSetHeader "Content-Type" (HvArray ["text/html; turbo-stream; charset=utf-8"]);
     CallSend (stream_template (action_value action) target EmptyString)] \/
  (exists view ls html, invocation_calls (streamActionHandler action target options) res =
    [CallSetHeader "Content-Type" (HvArray ["text/html; turbo-stream; charset=utf-8"]);
     CallRender view ls;
     CallSend (stream_template (action_value action) target html)]) \/
  (exists view ls, invocation_calls (streamActionHandler action target options) res =
    [CallSetHeader "Content-Type" (HvArray ["text/html; turbo-stream; charset=utf-8"]);
     CallRender view ls]).
Proof.
  destruct (run_cases res options) as [opts Hf | o p html Hp Hne Hv | o p e html Hp Hne Hv].
  - left. erewrite invocation_calls_app;
      [reflexivity | now apply run_without_partial | reflexivity].
  - right; left. exists p, (locals o), html.
    erewrite invocation_calls_app;
      [reflexivity | exact (run_rendered action target res o p html Hp Hne Hv) | reflexivity].
  - right; right. exists p, (locals o).
    erewrite invocation_calls_app;
      [reflexivity | exact (run_render_failed action target res o p html e Hp Hne Hv)
      | reflexivity].
Qed.

(** C4, as the code has it: in every run the content-type header is set
    first; the render of the partial, when there is one, comes after it;
    and the body is written after both. *)
Theorem header_then_render_then_send :
  head (invocation_calls (streamActionHandler action target options) res) =
    Some (CallSetHeader "Content-Type"
            (HvArray ["text/html; turbo-stream; charset=utf-8"])) /\
  happens_before is_set_header is_render
    (invocation_calls (streamActionHandler action target options) res) /\
  happens_before is_render is_send
    (invocation_calls (streamActionHandler action target options) res) /\
  happens_before is_set_header is_send
    (invocation_calls (streamActionHandler action target options) res).
Proof.
  destruct run_calls_shape as [-> | [(view & ls & html & ->) | (view & ls & ->)]];
    (split; [reflexivity | repeat split; by_positions]).
Qed.

(** C5: in every run in which rendering succeeds, the case without a
    partial included, the content-type header is set and the body is
    written, and the header call comes before the body is written. *)
Theorem header_set_before_body_written (content : string) :
  rendered_fragment res options content ->
  (exists i j : nat,
     invocation_calls (streamActionHandler action target options) res !! i =
       Some (CallSetHeader "Content-Type"
               (HvArray ["text/html; turbo-stream; charset=utf-8"])) /\
     invocation_calls (streamActionHandler action target options) res !! j =
       Some (CallSend (stream_template (action_value action) target content)) /\
     i < j) /\
  happens_before is_set_header is_send
    (invocation_calls (streamActionHandler action target options) res).
Proof.
  intros Hfrag.
  destruct (run_fragment action target res options content Hfrag)
    as (mid & Hmid & Hrun).
  erewrite invocation_calls_app; [| exact Hrun | reflexivity].
  destruct Hmid as [-> | (p & ls & ->)]; simpl.
  - split; [exists 0, 1; repeat split; lia | by_positions].
  - split; [exists 0, 2; repeat split; lia | by_positions].
Qed.

(** The argument of the one [setHeader] call of a run, and the entry it
    leaves in the header table. *)
Lemma content_type_call_and_entry :
  headers_set (invocation_calls (streamActionHandler action target options) res) =
    [("Content-Type", HvArray ["text/html; turbo-stream; charset=utf-8"])] /\
  headers (snd (streamActionHandler action target options res)) !! "Content-Type" =
    Some (HvArray ["text/html; turbo-stream; charset=utf-8"]).
Proof.
  split.
  - destruct run_calls_shape as [-> | [(view & ls & html & ->) | (view & ls & ->)]];
      reflexivity.
  - destruct (run_cases res options) as [opts Hf | o p html Hp Hne Hv | o p e html Hp Hne Hv].
    + rewrite run_without_partial by exact Hf. apply lookup_insert_eq.
    + rewrite (run_rendered action target res o p html Hp Hne Hv). apply lookup_insert_eq.
    + rewrite (run_render_failed action target res o p html e Hp Hne Hv).
      apply lookup_insert_eq.
Qed.

(** C6: in every run of a handler, whatever the action, the target, the
    options and the outcome of the render, the header lines set are one
    line, [Content-Type] with the value
    [text/html; turbo-stream; charset=utf-8], and the content-type header
    that the response carries afterwards has that string as its one
    value. *)
Theorem content_type_is_fixed_string :
  header_lines
    (headers_set (invocation_calls (streamActionHandler action target options) res)) =
    [("Content-Type", "text/html; turbo-stream; charset=utf-8")] /\
  header_values <$>
    (headers (snd (streamActionHandler action target options res)) !! "Content-Type") =
    Some ["text/html; turbo-stream; charset=utf-8"].
Proof.
  destruct content_type_call_and_entry as [Hcall Hentry].
  split.
  - rewrite Hcall. reflexivity.
  - rewrite Hentry. reflexivity.
Qed.

End Ordering.

(** C4, as the claim states it, fails: when [append] renders
    [messages/show], the render is the second call on the response and
    the setting of the header the first. *)
Lemma render_not_before_header :
  ~ (happens_before is_render is_set_header
       (invocation_calls
          (streamActionHandler append "messages" (Some sample_options)) fresh_response) /\
     happens_before is_set_header is_send
       (invocation_calls
          (streamActionHandler append "messages" (Some sample_options)) fresh_response)).
Proof.
  intros [Hbefore _].
  erewrite invocation_calls_app in Hbefore;
    [| apply (run_rendered append "messages" fresh_response sample_options
                "messages/show" "<p>My new message</p>");
       [reflexivity | discriminate | reflexivity]
     | reflexivity].
  specialize (Hbefore 1 0 _ _ eq_refl eq_refl eq_refl eq_refl). lia.
Qed.

Lemma header_set_before_body_written_witness :
  rendered_fragment fresh_response (Some sample_options) "<p>My new message</p>" /\
  happens_before is_set_header is_send
    (invocation_calls
       (streamActionHandler prepend "messages" (Some sample_options)) fresh_response).
Proof.
  assert (H : rendered_fragment fresh_response (Some sample_options) "<p>My new message</p>").
  { apply (fragment_html fresh_response sample_options "messages/show");
      [reflexivity | discriminate | reflexivity]. }
  split; [exact H|].
  exact (proj2 (header_set_before_body_written prepend "messages" fresh_response
                  (Some sample_options) "<p>My new message</p>" H)).
Defined.

(** ** Runs without a partial *)

Section NoPartial.
Variables (action : TurboStreamActions) (target : string) (res : Response).

(** C7: when [options?.partial] is absent, the fragment is the empty
    string, the view engine is not called, and the run is the run made
    with no options at all; so leaving the options out and passing
    options whose partial is undefined come to the same fragment, the same
    envelope, and the same response. *)
Theorem absent_partial_renders_nothing (options : option StreamOptions) :
  optional_partial options = None ->
  stream_content options res = (Fulfilled EmptyString, res) /\
  renders (invocation_calls (streamActionHandler action target options) res) = [] /\
  body (snd (streamActionHandler action target options res)) =
    Some (stream_template (action_value action) target EmptyString) /\
  streamActionHandler action target options res =
    streamActionHandler action target None res /\
  forall ls : option Locals,
    streamActionHandler action target (Some {| partial := None; locals := ls |}) res =
    streamActionHandler action target None res.
Proof.
  intros Habsent.
  assert (Hf : truthy (optional_partial options) = false) by now rewrite Habsent.
  split; [|split; [|split; [|split]]].
  - destruct options as [[[p|] ls]|]; simpl in *; try discriminate; reflexivity.
  - erewrite invocation_calls_app;
      [| now apply run_without_partial | reflexivity].
    reflexivity.
  - now rewrite run_without_partial.
  - now rewrite !run_without_partial.
  - intros ls. now rewrite !run_without_partial.
Qed.

(** C10: a partial that is the empty string is falsy, so it is treated
    as an absent one: the fragment is the empty string, the view engine
    is not called, and the run is the run made with no options. *)
Theorem empty_partial_is_absent_partial (ls : option Locals) :
  truthy (optional_partial (Some {| partial := Some EmptyString; locals := ls |})) = false /\
  stream_content (Some {| partial := Some EmptyString; locals := ls |}) res =
    (Fulfilled EmptyString, res) /\
  renders (invocation_calls
             (streamActionHandler action target
                (Some {| partial := Some EmptyString; locals := ls |})) res) = [] /\
  streamActionHandler action target
    (Some {| partial := Some EmptyString; locals := ls |}) res =
  streamActionHandler action target None res.
Proof.
  split; [reflexivity | split; [reflexivity | split]].
  - erewrite invocation_calls_app;
      [| apply run_without_partial; reflexivity | reflexivity].
    reflexivity.
  - now rewrite !run_without_partial.
Qed.

End NoPartial.

Lemma absent_partial_renders_nothing_witness :
  optional_partial (Some {| partial := None; locals := Some sample_locals |}) = None /\
  renders (invocation_calls
             (streamActionHandler remove "messages"
                (Some {| partial := None; locals := Some sample_locals |}))
             fresh_response) = [] /\
  streamActionHandler remove "messages"
    (Some {| partial := None; locals := Some sample_locals |}) fresh_response =
  streamActionHandler remove "messages" None fresh_response.
Proof.
  pose proof (absent_partial_renders_nothing remove "messages" fresh_response
                (Some {| partial := None; locals := Some sample_locals |}) eq_refl)
    as (_ & Hrenders & _ & Hsame & _).
  split; [reflexivity | split; [exact Hrenders | exact Hsame]].
Defined.

(** ** The five handlers *)

(** C8: the handlers of any two actions behave alike on every target,
    options and response: they complete the same way, leave the same
    headers, and make the same calls in the same order, except that the
    envelope each sends carries its own action value; on a render error
    both leave the body as it was. *)
Theorem handlers_differ_only_in_action_value
    (a1 a2 : TurboStreamActions) (target : string)
    (options : option StreamOptions) (res : Response) :
  fst (streamActionHandler a1 target options res) =
    fst (streamActionHandler a2 target options res) /\
  headers (snd (streamActionHandler a1 target options res)) =
    headers (snd (streamActionHandler a2 target options res)) /\
  Forall2 (same_up_to_action a1 a2 target)
    (invocation_calls (streamActionHandler a1 target options) res)
    (invocation_calls (streamActionHandler a2 target options) res) /\
  ((exists content : string,
      body (snd (streamActionHandler a1 target options res)) =
        Some (stream_template (action_value a1) target content) /\
      body (snd (streamActionHandler a2 target options res)) =
        Some (stream_template (action_value a2) target content)) \/
   (body (snd (streamActionHandler a1 target options res)) = body res /\
    body (snd (streamActionHandler a2 target options res)) = body res)).
Proof.
  destruct (run_cases res options) as [opts Hf | o p html Hp Hne Hv | o p e html Hp Hne Hv].
  - rewrite !(run_without_partial _ target res opts Hf).
    unfold invocation_calls.
    rewrite !(run_without_partial _ target res opts Hf); simpl.
    rewrite !drop_app_length.
    repeat split.
    + repeat constructor.
    + left. eauto.
  - rewrite !(run_rendered _ target res o p html Hp Hne Hv).
    unfold invocation_calls.
    rewrite !(run_rendered _ target res o p html Hp Hne Hv); simpl.
    rewrite !drop_app_length.
    repeat split.
    + repeat constructor.
    + left. eauto.
  - rewrite !(run_render_failed _ target res o p html e Hp Hne Hv).
    unfold invocation_calls.
    rewrite !(run_render_failed _ target res o p html e Hp Hne Hv); simpl.
    rewrite !drop_app_length.
    repeat split.
    + repeat constructor.
    + right. split; reflexivity.
Qed.

(** ** Installing the middleware *)

(** C9: whatever the request, the response and the continuation, the
    middleware hands over to the continuation, run once, the response
    with a [turboStream] object attached whose entry point for each of
    the five actions is the handler of that action, and with nothing else
    about the response changed; what the continuation leaves is what the
    middleware leaves. *)
Theorem middleware_attaches_then_calls_next
    (req : Request) (res : HotwireResponse) (next : NextFunction) :
  exists ts : TurboStream,
    middleware req res next =
      next {| res_base := res_base res; res_turboStream := Some ts |} /\
    forall action : TurboStreamActions,
      entry_point ts action = streamActionHandler action.
Proof.
  eexists. split; [reflexivity|].
  intros []; reflexivity.
Qed.

(** ** The README's call, run *)

(** [res.turboStream.append('messages', { partial: 'messages/show', locals })]
    on a fresh response: the three calls made, in order. *)
Example append_messages_show_calls :
  calls (snd (streamActionHandler append "messages" (Some sample_options) fresh_response)) =
    [CallSetHeader "Content-Type" (HvArray ["text/html; turbo-stream; charset=utf-8"]);
     CallRender "messages/show" (Some sample_locals);
     CallSend
       (LF +:+ "  <turbo-stream action=" +:+ DQ +:+ "append" +:+ DQ +:+
          " target=" +:+ DQ +:+ "messages" +:+ DQ +:+ ">" +:+ LF +:+
        "    <template>" +:+ LF +:+
        "<p>My new message</p>" +:+ LF +:+
        "    </template>" +:+ LF +:+
        "  </turbo-stream>" +:+ LF +:+
        "  ")].
Proof. reflexivity. Qed.

(** The same call for a view the engine does not find: rejected, nothing
    sent. *)
Example append_missing_view_rejected :
  fst (streamActionHandler append "messages"
         (Some {| partial := Some "messages/missing"; locals := None |}) fresh_response) =
    Rejected view_not_found /\
  calls (snd (streamActionHandler append "messages"
         (Some {| partial := Some "messages/missing"; locals := None |}) fresh_response)) =
    [CallSetHeader "Content-Type" (HvArray ["text/html; turbo-stream; charset=utf-8"]);
     CallRender "messages/missing" None].
Proof. split; reflexivity. Qed.

(** * Further properties of the module *)

(** ** More on strings *)

Lemma string_app_length (s1 s2 : string) :
  String.length (s1 +:+ s2) = String.length s1 + String.length s2.
Proof.
  induction s1 as [|c s1 IH].
  - reflexivity.
  - rewrite string_app_cons. simpl. now rewrite IH.
Qed.

Lemma string_app_inv_head (s a b : string) : s +:+ a = s +:+ b -> a = b.
Proof.
  induction s as [|c s IH]; intros H.
  - exact H.
  - rewrite !string_app_cons in H. injection H as H. now apply IH.
Qed.

Lemma string_app_inv_tail (s a b : string) : a +:+ s = b +:+ s -> a = b.
Proof.
  revert b. induction a as [|c a IH]; intros [|d b] H.
  - reflexivity.
  - apply (f_equal String.length) in H.
    rewrite string_app_nil, string_app_cons in H. simpl in H.
    rewrite string_app_length in H. lia.
  - apply (f_equal String.length) in H.
    rewrite string_app_nil, string_app_cons in H. simpl in H.
    rewrite string_app_length in H. lia.
  - rewrite !string_app_cons in H. injection H as Hc H.
    subst d. f_equal. now apply IH.
Qed.

(** Two strings without a double quote, each followed by one, are told
    apart from what follows them. *)
Lemma split_at_first_quote (t1 t2 r1 r2 : string) :
  quote_free t1 = true -> quote_free t2 = true ->
  t1 +:+ DQ +:+ r1 = t2 +:+ DQ +:+ r2 -> t1 = t2 /\ r1 = r2.
Proof.
  change (DQ +:+ r1) with (String (Ascii.ascii_of_nat 34) r1).
  change (DQ +:+ r2) with (String (Ascii.ascii_of_nat 34) r2).
  revert t2. induction t1 as [|c t1 IH]; intros [|d t2] Hq1 Hq2 H.
  - rewrite !string_app_nil in H. injection H as H. now split.
  - rewrite string_app_nil, string_app_cons in H. injection H as Hd _.
    subst d. simpl in Hq2. discriminate.
  - rewrite string_app_nil, string_app_cons in H. injection H as Hc _.
    subst c. simpl in Hq1. discriminate.
  - rewrite !string_app_cons in H. injection H as Hc H. subst d.
    simpl in Hq1, Hq2.
    apply andb_true_iff in Hq1 as [_ Hq1]. apply andb_true_iff in Hq2 as [_ Hq2].
    destruct (IH t2 Hq1 Hq2 H) as [-> ->]. now split.
Qed.

(** ** Reading an envelope back *)

(** X1: the action can always be read back from an envelope: envelopes
    built for two actions are equal only when the actions are, whatever
    the targets and the contents. *)
Theorem envelope_tells_action (a1 a2 : TurboStreamActions) (t1 t2 c1 c2 : string) :
  stream_template (action_value a1) t1 c1 = stream_template (action_value a2) t2 c2 ->
  a1 = a2.
Proof.
  intros H. unfold stream_template in H.
  do 3 apply string_app_inv_head in H.
  destruct a1, a2; try reflexivity; exfalso;
    unfold action_value in H; rewrite !string_app_cons in H; discriminate H.
Qed.

Lemma envelope_tells_action_witness :
  stream_template (action_value replace) "messages" "<p>hi</p>" =
    stream_template (action_value replace) "messages" "<p>hi</p>" /\
  replace = replace.
Proof.
  split; [reflexivity|].
  exact (envelope_tells_action replace replace "messages" "messages"
           "<p>hi</p>" "<p>hi</p>" eq_refl).
Defined.

(** X2: for a given action text and target, the content can be read back
    from the envelope: two envelopes that differ only in their contents
    are different. *)
Theorem envelope_tells_content (action target c1 c2 : string) :
  stream_template action target c1 = stream_template action target c2 ->
  c1 = c2.
Proof.
  intros H. unfold stream_template in H.
  do 13 apply string_app_inv_head in H.
  now apply string_app_inv_tail in H.
Qed.

Lemma envelope_tells_content_witness :
  stream_template "append" "messages" EmptyString =
    stream_template "append" "messages" EmptyString /\
  EmptyString = EmptyString.
Proof.
  split; [reflexivity|].
  exact (envelope_tells_content "append" "messages" EmptyString EmptyString eq_refl).
Defined.

(** X3: nothing in the target is escaped, so a target can pose as
    content: when the target holds the text that closes the opening tag
    and opens the template, what follows it in the target reads as the
    start of the content. *)
Theorem target_spills_into_content (action target spill content : string) :
  stream_template action (target +:+ template_opening +:+ spill) content =
  stream_template action target (spill +:+ template_opening +:+ content).
Proof.
  unfold stream_template, template_opening.
  now rewrite !string_app_assoc.
Qed.

(** X4: with targets that hold no double quote, the envelope is read
    back without ambiguity: equal envelopes come from the same action,
    the same target and the same content. *)
Theorem envelope_unambiguous_without_quotes
    (a1 a2 : TurboStreamActions) (t1 t2 c1 c2 : string) :
  quote_free t1 = true -> quote_free t2 = true ->
  stream_template (action_value a1) t1 c1 = stream_template (action_value a2) t2 c2 ->
  a1 = a2 /\ t1 = t2 /\ c1 = c2.
Proof.
  intros Hq1 Hq2 H.
  assert (Ha : a1 = a2).
  { unfold stream_template in H. do 3 apply string_app_inv_head in H.
    destruct a1, a2; try reflexivity; exfalso;
      unfold action_value in H; rewrite !string_app_cons in H; discriminate H. }
  subst a2. split; [reflexivity|].
  unfold stream_template in H.
  do 7 apply string_app_inv_head in H.
  destruct (split_at_first_quote _ _ _ _ Hq1 Hq2 H) as [-> Hrest].
  split; [reflexivity|].
  do 4 apply string_app_inv_head in Hrest.
  now apply string_app_inv_tail in Hrest.
Qed.

Lemma envelope_unambiguous_without_quotes_witness :
  quote_free "messages" = true /\
  (update = update /\ "messages" = "messages" /\ "<li>1</li>" = "<li>1</li>").
Proof.
  split; [reflexivity|].
  exact (envelope_unambiguous_without_quotes update update "messages" "messages"
           "<li>1</li>" "<li>1</li>" eq_refl eq_refl eq_refl).
Defined.


(** ** What [stream] and the handlers never do *)

(** X6: [stream] is rejected only by a render error: its promise is
    rejected with [e] exactly when the options hold a non-empty partial
    for which the view engine reports [e]; otherwise it is fulfilled,
    with the envelope around the rendered fragment. *)
Theorem stream_rejected_iff_render_error
    (target : string) (action : TurboStreamActions)
    (options : option StreamOptions) (res : Response) (e : JsError) :
  (fst (stream target action options res) = Rejected e <->
   exists (o : StreamOptions) (p html : string),
     options = Some o /\ partial o = Some p /\ p <> EmptyString /\
     view_engine res p (locals o) = (Some e, html)) /\
  forall envelope : string,
    fst (stream target action options res) = Fulfilled envelope <->
    exists content : string,
      rendered_fragment res options content /\
      envelope = stream_template (action_value action) target content.
Proof.
  assert (Hrun : forall o p, partial o = Some p -> p <> EmptyString ->
            fst (stream target action (Some o) res) =
            match view_engine res p (locals o) with
            | (Some e', _) => Rejected e'
            | (None, html) =>
                Fulfilled (stream_template (action_value action) target html)
            end).
  { intros o p Hp Hne. apply truthy_Some in Hne.
    unfold stream, stream_content, await. rewrite Hp, Hne. unfold render.
    destruct (view_engine res p (locals o)) as [[e'|] html]; reflexivity. }
  assert (Hnone : truthy (optional_partial options) = false ->
            fst (stream target action options res) =
            Fulfilled (stream_template (action_value action) target EmptyString)).
  { intros Hf. unfold stream, stream_content, await.
    destruct options as [[[p|] ls]|]; simpl in *; rewrite ?Hf; reflexivity. }
  destruct (run_cases res options)
    as [opts Hf | o p html Hp Hne Hv | o p e' html Hp Hne Hv].
  - rewrite (Hnone Hf). split.
    + split; [discriminate|].
      intros (o & p & html & -> & Hp & Hne & _). apply truthy_Some in Hne.
      simpl in Hf. rewrite Hp in Hf. congruence.
    + intros envelope. split.
      * intros [= <-]. exists EmptyString. split; [now apply fragment_empty | reflexivity].
      * intros (content & Hfrag & ->). f_equal. f_equal.
        inversion Hfrag as [? _ | o p html Hp Hne Hv]; subst; [reflexivity|].
        apply truthy_Some in Hne. simpl in Hf. rewrite Hp in Hf. congruence.
  - rewrite (Hrun o p Hp Hne), Hv. split.
    + split; [discriminate|].
      intros (o' & p' & html' & [= <-] & Hp' & _ & Hv'). congruence.
    + intros envelope. split.
      * intros [= <-]. exists html.
        split; [exact (fragment_html res o p html Hp Hne Hv) | reflexivity].
      * intros (content & Hfrag & ->). f_equal. f_equal.
        inversion Hfrag as [? Hf | o' p' html' Hp' Hne' Hv']; subst.
        -- apply truthy_Some in Hne. simpl in Hf. rewrite Hp in Hf. congruence.
        -- congruence.
  - rewrite (Hrun o p Hp Hne), Hv. split.
    + split.
      * intros [= ->]. exists o, p, html. auto.
      * intros (o' & p' & html' & [= <-] & Hp' & _ & Hv'). congruence.
    + intros envelope. split; [discriminate|].
      intros (content & Hfrag & _).
      inversion Hfrag as [? Hf | o' p' html' Hp' Hne' Hv']; subst.
      * apply truthy_Some in Hne. simpl in Hf. rewrite Hp in Hf. congruence.
      * congruence.
Qed.

(** X7: [stream] only renders: it leaves the headers, the body and the
    view engine of the response as they are, sets no header and sends
    nothing, and makes at most one call on the response. *)
Theorem stream_only_renders
    (target : string) (action : TurboStreamActions)
    (options : option StreamOptions) (res : Response) :
  headers (snd (stream target action options res)) = headers res /\
  body (snd (stream target action options res)) = body res /\
  view_engine (snd (stream target action options res)) = view_engine res /\
  headers_set (invocation_calls (stream target action options) res) = [] /\
  sent (invocation_calls (stream target action options) res) = [] /\
  length (invocation_calls (stream target action options) res) <= 1.
Proof.
  unfold invocation_calls, stream, stream_content, await.
  destruct options as [[[p|] ls]|]; simpl.
  - destruct (negb (String.eqb p EmptyString)).
    + unfold render. simpl.
      destruct (view_engine res p ls) as [[e|] html]; simpl;
        rewrite drop_app_length; repeat split; simpl; lia.
    + simpl. rewrite drop_all. repeat split; simpl; lia.
  - rewrite drop_all. repeat split; simpl; lia.
  - rewrite drop_all. repeat split; simpl; lia.
Qed.

(** X8: whether a handler is fulfilled or rejected, and what it asks of
    the view engine, depends on the options and the response only: any
    two actions and any two targets give the same completion and the same
    render calls. *)
Theorem completion_independent_of_action_and_target
    (a1 a2 : TurboStreamActions) (t1 t2 : string)
    (options : option StreamOptions) (res : Response) :
  fst (streamActionHandler a1 t1 options res) =
    fst (streamActionHandler a2 t2 options res) /\
  renders (invocation_calls (streamActionHandler a1 t1 options) res) =
    renders (invocation_calls (streamActionHandler a2 t2 options) res).
Proof.
  unfold invocation_calls.
  destruct (run_cases res options) as [opts Hf | o p html Hp Hne Hv | o p e html Hp Hne Hv].
  - rewrite (run_without_partial a1 t1 res opts Hf),
            (run_without_partial a2 t2 res opts Hf); simpl.
    rewrite !drop_app_length. split; reflexivity.
  - rewrite (run_rendered a1 t1 res o p html Hp Hne Hv),
            (run_rendered a2 t2 res o p html Hp Hne Hv); simpl.
    rewrite !drop_app_length. split; reflexivity.
  - rewrite (run_render_failed a1 t1 res o p html e Hp Hne Hv),
            (run_render_failed a2 t2 res o p html e Hp Hne Hv); simpl.
    rewrite !drop_app_length. split; reflexivity.
Qed.

(** ** Installing and using the middleware *)

(** X9: installing the middleware twice is installing it once: the
    second attachment replaces the first by an object with the same
    entry points, whatever [turboStream] the response carried before,
    and the rest of the pipeline runs once. *)
Theorem install_twice_is_install_once
    (req1 req2 : Request) (res : HotwireResponse) (previous : option TurboStream)
    (next : NextFunction) :
  buildMiddleware tt req1 res (fun res' => buildMiddleware tt req2 res' next) =
    buildMiddleware tt req1 res next /\
  buildMiddleware tt req1
    {| res_base := res_base res; res_turboStream := previous |} next =
    buildMiddleware tt req1 res next.
Proof.
  split; reflexivity.
Qed.

(** X10: end to end: once the middleware is installed, a route that
    calls [res.turboStream[action](target, options)] leaves the response
    with the content-type header set and the envelope around the rendered
    fragment as its body, provided the fragment renders; the attached
    object is still on the response. *)
Theorem installed_route_writes_envelope
    (req : Request) (res : HotwireResponse) (action : TurboStreamActions)
    (target : string) (options : option StreamOptions) (content : string) :
  rendered_fragment (res_base res) options content ->
  body (res_base (buildMiddleware tt req res (route action target options))) =
    Some (stream_template (action_value action) target content) /\
  headers (res_base (buildMiddleware tt req res (route action target options)))
    !! "Content-Type" = Some (HvArray ["text/html; turbo-stream; charset=utf-8"]) /\
  exists ts : TurboStream,
    res_turboStream (buildMiddleware tt req res (route action target options)) = Some ts /\
    forall a : TurboStreamActions, entry_point ts a = streamActionHandler a.
Proof.
  intros Hfrag.
  destruct (run_fragment action target (res_base res) options content Hfrag)
    as (mid & _ & Hrun).
  unfold buildMiddleware, middleware, route. simpl.
  assert (Hentry : forall ts, (forall a, entry_point ts a = streamActionHandler a) ->
            entry_point ts action target options (res_base res) =
            streamActionHandler action target options (res_base res))
    by (intros ts Hts; now rewrite Hts).
  rewrite Hentry by (intros []; reflexivity).
  rewrite Hrun. simpl.
  split; [reflexivity | split; [apply lookup_insert_eq|]].
  eexists. split; [reflexivity | intros []; reflexivity].
Qed.

Lemma installed_route_writes_envelope_witness :
  rendered_fragment fresh_response (Some sample_options) "<p>My new message</p>" /\
  body (res_base
          (buildMiddleware tt tt
             {| res_base := fresh_response; res_turboStream := None |}
             (route append "messages" (Some sample_options)))) =
    Some (stream_template "append" "messages" "<p>My new message</p>").
Proof.
  assert (H : rendered_fragment fresh_response (Some sample_options) "<p>My new message</p>").
  { apply (fragment_html fresh_response sample_options "messages/show");
      [reflexivity | discriminate | reflexivity]. }
  split; [exact H|].
  exact (proj1 (installed_route_writes_envelope tt
                  {| res_base := fresh_response; res_turboStream := None |}
                  append "messages" (Some sample_options) "<p>My new message</p>" H)).
Defined.
